(** * A password-gated message board (src/app.py)

    Shallow embedding of the Flask application in [src/app.py]: the two
    SQLAlchemy models, the session gate [login_required], and the request
    handlers [login], [logout], [list_topics], [view_topic], [new_topic] and
    [add_message], followed by the properties of the board service.

    Conventions.
    - A Python [str] is a [string]; one element of the [string] stands for one
      character of the [str].
    - A Python [int] is a [Z].
    - [None]-able values are [option]s.
    - The relational store is two lists of rows kept in insertion order; the
      [created_at] column (a server clock reading) is not represented. *)

From Stdlib Require Import Ascii String.
From stdpp Require Import base option list sorting gmap strings.

Local Open Scope string_scope.
Local Open Scope Z_scope.
Local Open Scope list_scope.

(** ** Python primitives used by the handlers *)

Module Py.

(** Truth value of an optional string, as tested by [if x:] and [not x]:
    [None] and the empty string are false, everything else is true. *)
Definition truthy (x : option string) : bool :=
  match x with
  | None => false
  | Some "" => false
  | Some (String _ _) => true
  end.

(** [s[:n]], the slice holding the first [n] characters of [s] (all of [s]
    when it is shorter). *)
Fixpoint slice_to (n : nat) (s : string) : string :=
  match n, s with
  | O, _ => ""
  | S _, "" => ""
  | S n', String c s' => String c (slice_to n' s')
  end.

(** [x or ''] for an optional string. *)
Definition or_empty (x : option string) : string :=
  if truthy x then default "" x else "".

(** Whitespace as [str.strip] sees it (code points below 256). *)
Definition isspace (c : ascii) : bool :=
  let n := nat_of_ascii c in
  ((9 <=? n)%nat && (n <=? 13)%nat)
  || ((28 <=? n)%nat && (n <=? 32)%nat)
  || (n =? 133)%nat || (n =? 160)%nat.

Fixpoint lstrip (s : string) : string :=
  match s with
  | "" => ""
  | String c s' => if isspace c then lstrip s' else s
  end.

Fixpoint rstrip (s : string) : string :=
  match s with
  | "" => ""
  | String c s' =>
      match rstrip s' with
      | "" => if isspace c then "" else String c ""
      | r => String c r
      end
  end.

(** [s.strip()] *)
Definition strip (s : string) : string := rstrip (lstrip s).

Definition digit (c : ascii) : option Z :=
  let n := nat_of_ascii c in
  if ((48 <=? n)%nat && (n <=? 57)%nat)%bool then Some (Z.of_nat n - 48) else None.

(** Decimal digits with single underscores allowed between digits.
    [prev] records that the previous character was a digit. *)
Fixpoint digits (acc : Z) (prev : bool) (s : string) : option Z :=
  match s with
  | "" => if prev then Some acc else None
  | String c s' =>
      match digit c with
      | Some d => digits (10 * acc + d) true s'
      | None =>
          if (Ascii.eqb c "_" && prev)%bool then digits acc false s' else None
      end
  end.

(** Whitespace as [int] removes it from the two ends of its argument: the C
    whitespace characters 9..13 and 32, and, for code points below 256, the
    Unicode spaces U+0085 and U+00A0, which [int] rewrites to a blank before
    it parses.  The separators 28..31, which [str.strip] removes, are not
    among them. *)
Definition int_isspace (c : ascii) : bool :=
  let n := nat_of_ascii c in
  ((9 <=? n)%nat && (n <=? 13)%nat)
  || (n =? 32)%nat || (n =? 133)%nat || (n =? 160)%nat.

Fixpoint int_lstrip (s : string) : string :=
  match s with
  | "" => ""
  | String c s' => if int_isspace c then int_lstrip s' else s
  end.

Fixpoint int_rstrip (s : string) : string :=
  match s with
  | "" => ""
  | String c s' =>
      match int_rstrip s' with
      | "" => if int_isspace c then "" else String c ""
      | r => String c r
      end
  end.

(** Number of digit characters of a text. *)
Fixpoint digit_count (s : string) : nat :=
  match s with
  | "" => O
  | String c s' =>
      match digit c with
      | Some _ => S (digit_count s')
      | None => digit_count s'
      end
  end.

(** [sys.int_max_str_digits], at its default. *)
Definition max_str_digits : nat := 4300.

(** [int(s)] in base ten; [None] stands for [ValueError], which is also what
    a text of more than [max_str_digits] digits gets. *)
Definition int (s : string) : option Z :=
  let t := int_rstrip (int_lstrip s) in
  if (max_str_digits <? digit_count t)%nat then None
  else
    match t with
    | "" => None
    | String "+" r => digits 0 false r
    | String "-" r => Z.opp <$> digits 0 false r
    | _ => digits 0 false t
    end.

End Py.

(** ** The models (src/app.py, lines 19-29) *)

Record Topic := mkTopic {
  Topic_id : Z;
  Topic_title : string
}.

Record Message := mkMessage {
  Message_id : Z;
  Message_content : string;
  Message_username : option string;
  Message_topic_id : Z
}.

Global Instance Topic_eq_dec : EqDecision Topic.
Proof. solve_decision. Defined.

Global Instance Message_eq_dec : EqDecision Message.
Proof. solve_decision. Defined.

(** ** The relational store behind [db]

    SQLite, reached through SQLAlchemy.  A table is the list of its rows in
    insertion order.  An [INTEGER PRIMARY KEY] column left unset on insert
    receives one more than the largest key in the table, and 1 in an empty
    table.  Column lengths ([String(100)] and the like) are not enforced by
    SQLite, and neither are foreign keys unless switched on, which the
    application does not do.  SQLite's integers are 64-bit: an integer
    outside that range cannot be bound to a statement, and the driver raises
    [OverflowError] instead ([fits_int64] is the test).  The keys of the
    rows are taken to lie within the range. *)

Module Store.

Record DB := mkDB {
  topic_table : list Topic;
  message_table : list Message
}.

Definition empty : DB := mkDB [] [].

Definition next_rowid (ids : list Z) : Z := 1 + foldr Z.max 0 ids.

(** Whether an integer can be bound as a parameter of a statement. *)
Definition fits_int64 (x : Z) : bool := (- 2 ^ 63 <=? x) && (x <? 2 ^ 63).

(** [db.session.add(Topic(title=title)); db.session.commit()]: returns the
    row as refreshed after the commit, with its key. *)
Definition add_topic (title : string) (d : DB) : Topic * DB :=
  let t := mkTopic (next_rowid (Topic_id <$> topic_table d)) title in
  (t, mkDB (topic_table d ++ [t]) (message_table d)).

(** [db.session.add(Message(...)); db.session.commit()], for a topic id that
    can be bound. *)
Definition add_message (content : string) (username : option string)
    (topic_id : Z) (d : DB) : Message * DB :=
  let m := mkMessage (next_rowid (Message_id <$> message_table d))
             content username topic_id in
  (m, mkDB (topic_table d) (message_table d ++ [m])).

(** [Model.query.get(ident)]: the row whose primary key is [ident]. *)
Definition get {A} (key : A -> Z) (ident : Z) (rows : list A) : option A :=
  List.find (fun r => bool_decide (key r = ident)) rows.

(** [query.filter_by(topic_id=topic_id)] on messages. *)
Definition filter_by_topic_id (topic_id : Z) (rows : list Message) : list Message :=
  filter (fun m => Message_topic_id m = topic_id) rows.

(** Descending order on a key. *)
Definition desc {A} (key : A -> Z) : relation A := fun a b => key b <= key a.

Global Instance desc_dec {A} (key : A -> Z) : RelDecision (desc key).
Proof. intros a b. unfold desc. apply _. Defined.

(** [query.order_by(Model.key.desc())] *)
Definition order_by_desc {A} (key : A -> Z) (rows : list A) : list A :=
  merge_sort (desc key) rows.

End Store.

(** ** Flask-SQLAlchemy pagination

    [query.paginate(page=page, per_page=per_page)] with the library's default
    [error_out=True]: the call aborts with 404 when [page] or [per_page] is
    below 1, and when the requested page holds no row and is not page 1.
    Otherwise it fetches [LIMIT per_page OFFSET (page - 1) * per_page]; limit
    and offset are bound as parameters, so the fetch raises [OverflowError]
    when one of them does not fit. *)

(** How a request ends when the view raises: [NotFound] is the 404 of
    [abort(404)]; [InternalServerError] is the 500 Flask answers with when
    any other exception escapes the view, here the [OverflowError] of the
    database driver. *)
Inductive HTTPException := NotFound | InternalServerError.

Global Instance HTTPException_eq_dec : EqDecision HTTPException.
Proof. solve_decision. Defined.

(** Result of a computation that may raise an [HTTPException]. *)
Definition Exc (A : Type) : Type := HTTPException + A.

Definition raise {A} (e : HTTPException) : Exc A := inl e.

Global Instance Exc_ret : MRet Exc := fun A a => inr a.

Global Instance Exc_bind : MBind Exc := fun A B k m =>
  match m with
  | inl e => inl e
  | inr a => k a
  end.

Record Pagination := mkPagination {
  items : list Message;
  page : Z;
  per_page : Z;
  total : nat
}.

Global Instance Pagination_eq_dec : EqDecision Pagination.
Proof. solve_decision. Defined.

Definition paginate (query : list Message) (page per_page : Z) : Exc Pagination :=
  if page <? 1 then raise NotFound
  else if per_page <? 1 then raise NotFound
  else if negb (Store.fits_int64 per_page && Store.fits_int64 ((page - 1) * per_page))
  then raise InternalServerError
  else
    let items := take (Z.to_nat per_page) (drop (Z.to_nat ((page - 1) * per_page)) query) in
    if bool_decide (items = []) && negb (page =? 1) then raise NotFound
    else mret (mkPagination items page per_page (length query)).

(** [Model.query.get_or_404(ident)].  The key is bound to the query, which
    fails when it does not fit.  A table holds only keys that fit, so a key
    that does not fit names no row; the lookup is written first, which spares
    every statement about a row that was found an assumption on the keys of
    the table. *)
Definition get_or_404 {A} (key : A -> Z) (ident : Z) (rows : list A) : Exc A :=
  match Store.get key ident rows with
  | Some r => mret r
  | None => if Store.fits_int64 ident then raise NotFound else raise InternalServerError
  end.

(** ** Requests, sessions and responses *)

(** The methods the routes of the application accept; Flask adds [HEAD] to
    every route that accepts [GET]. *)
Inductive Method := GET | HEAD | POST.

Global Instance Method_eq_dec : EqDecision Method.
Proof. solve_decision. Defined.

(** What the handlers read from [request]: the method, the full URL, the query
    arguments, the submitted form and the cookies. *)
Record Request := mkRequest {
  method : Method;
  url : string;
  args : gmap string string;
  form : gmap string string;
  cookies : gmap string string
}.

(** [request.args.get(key, default, type=int)]: the default when the key is
    missing and when the conversion raises [ValueError]. *)
Definition args_get_int (req : Request) (key : string) (dflt : Z) : Z :=
  match args req !! key with
  | None => dflt
  | Some v => default dflt (Py.int v)
  end.

(** Values held by the Flask session: the flags set by [login] and the queue
    of flashed messages, stored under ["_flashes"] as (category, message). *)
Inductive SessionValue :=
| SBool (b : bool)
| SFlashes (l : list (string * string)).

Definition get_flashed (s : gmap string SessionValue) : list (string * string) :=
  match s !! "_flashes" with
  | Some (SFlashes l) => l
  | _ => []
  end.

(** [flash(message, category)] *)
Definition flash (message category : string) (s : gmap string SessionValue)
    : gmap string SessionValue :=
  <["_flashes" := SFlashes (get_flashed s ++ [(category, message)])]> s.

(** The process state a handler runs in: the environment, the store, and the
    session of the client that sent the request. *)
Record World := mkWorld {
  environ : gmap string string;
  db : Store.DB;
  session : gmap string SessionValue
}.

Definition with_db (d : Store.DB) (w : World) : World :=
  mkWorld (environ w) d (session w).

Definition with_session (s : gmap string SessionValue) (w : World) : World :=
  mkWorld (environ w) (db w) s.

(** Targets of [redirect]: the URLs built by [url_for] for the endpoints the
    application redirects to, kept symbolic, or a URL given as a string. *)
Inductive Location :=
| url_for_login (next : option string)
| url_for_list_topics
| url_for_view_topic (topic_id : Z)
| Url (u : string).

(** The query arguments a request sent to a location carries: [url_for] turns
    keyword arguments that are not part of the route into the query string. *)
Definition query_of (l : Location) : gmap string string :=
  match l with
  | url_for_login (Some n) => {[ "next" := n ]}
  | _ => ∅
  end.

Inductive Template :=
| login_html
| topics_html (topics : list Topic)
| topic_html (topic : Topic) (messages : Pagination) (username : string)
| new_topic_html.

Inductive Body :=
| redirect (location : Location)
| render_template (t : Template)
| abort (e : HTTPException).

(** [set_cookie(name, value, max_age)] *)
Record Cookie := mkCookie {
  cookie_name : string;
  cookie_value : string;
  max_age : Z
}.

Record Response := mkResponse {
  body : Body;
  cookies_set : list Cookie
}.

Coercion respond (b : Body) : Response := mkResponse b [].

Definition set_cookie (name value : string) (age : Z) (r : Response) : Response :=
  mkResponse (body r) (cookies_set r ++ [mkCookie name value age]).

(** Flask's handling of an [HTTPException] escaping a view: it becomes the
    response. *)
Definition handle_exception (r : Exc Response) : Response :=
  match r with
  | inl e => respond (abort e)
  | inr resp => resp
  end.

Definition Handler : Type := World -> Request -> Response * World.

(** ** The application (src/app.py, lines 36-116) *)

Definition authenticated (s : gmap string SessionValue) : bool :=
  bool_decide (is_Some (s !! "authenticated")).

Definition login_required (f : Handler) : Handler :=
  fun w req =>
    if negb (authenticated (session w))
    then (respond (redirect (url_for_login (Some (url req)))), w)
    else f w req.

Definition login : Handler :=
  fun w req =>
    match method req with
    | POST =>
        let password := form req !! "password" in
        if bool_decide (password = environ w !! "BOARD_PASSWORD") then
          let s := <["_permanent" := SBool true]>
                     (<["authenticated" := SBool true]> (session w)) in
          let next_page := args req !! "next" in
          (if Py.truthy next_page
           then respond (redirect (Url (default "" next_page)))
           else respond (redirect url_for_list_topics),
           with_session s w)
        else
          (respond (render_template login_html),
           with_session (flash "Invalid password" "error" (session w)) w)
    | _ => (respond (render_template login_html), w)
    end.

Definition logout : Handler :=
  fun w req =>
    (respond (redirect (url_for_login None)), with_session ∅ w).

Definition list_topics : Handler :=
  login_required (fun w req =>
    let topics := Store.order_by_desc Topic_id (Store.topic_table (db w)) in
    (respond (render_template (topics_html topics)), w)).

Definition view_topic (topic_id : Z) : Handler :=
  login_required (fun w req =>
    let page := args_get_int req "page" 1 in
    (handle_exception (
       topic ← get_or_404 Topic_id topic_id (Store.topic_table (db w));
       messages ← paginate
         (Store.order_by_desc Message_id
            (Store.filter_by_topic_id topic_id (Store.message_table (db w))))
         page 10;
       let username := Py.or_empty (cookies req !! "username") in
       mret (respond (render_template (topic_html topic messages username)))),
     w)).

Definition new_topic : Handler :=
  login_required (fun w req =>
    match method req with
    | POST =>
        let title := form req !! "title" in
        if Py.truthy title then
          let '(topic, d) := Store.add_topic (default "" title) (db w) in
          (respond (redirect (url_for_view_topic (Topic_id topic))), with_db d w)
        else
          (respond (render_template new_topic_html),
           with_session (flash "Topic title cannot be empty" "error" (session w)) w)
    | _ => (respond (render_template new_topic_html), w)
    end).

Definition add_message (topic_id : Z) : Handler :=
  login_required (fun w req =>
    let content := form req !! "content" in
    let username := form req !! "username" in
    if negb (Py.truthy content) then
      (respond (redirect (url_for_view_topic topic_id)),
       with_session (flash "Message cannot be empty" "error" (session w)) w)
    else
      let '(message, d) :=
        Store.add_message
          (Py.slice_to 300 (default "" content))
          (if Py.truthy username then Some (Py.slice_to 50 (default "" username)) else None)
          topic_id (db w) in
      let response := respond (redirect (url_for_view_topic topic_id)) in
      let response :=
        if Py.truthy username
        then set_cookie "username" (default "" username) (30 * 24 * 60 * 60) response
        else response in
      (response, with_db d w)).

(** The messages of a topic in the order [view_topic] pages through them. *)
Definition topic_messages (topic_id : Z) (w : World) : list Message :=
  Store.order_by_desc Message_id
    (Store.filter_by_topic_id topic_id (Store.message_table (db w))).

(** The page number [view_topic] reads from the request. *)
Definition requested_page (req : Request) : Z := args_get_int req "page" 1.

(** The operations of the board service behind the session gate, and the
    handler serving each. *)
Inductive Operation :=
| op_list_topics
| op_view_topic (topic_id : Z)
| op_create_topic
| op_add_message (topic_id : Z).

Definition handler_of (op : Operation) : Handler :=
  match op with
  | op_list_topics => list_topics
  | op_view_topic topic_id => view_topic topic_id
  | op_create_topic => new_topic
  | op_add_message topic_id => add_message topic_id
  end.


(** The row an accepted post with content [c] appends. *)
Definition posted_row (w : World) (req : Request) (topic_id : Z) (c : string) : Message :=
  mkMessage (Store.next_rowid (Message_id <$> Store.message_table (db w)))
    (Py.slice_to 300 c)
    (if Py.truthy (form req !! "username")
     then Some (Py.slice_to 50 (default "" (form req !! "username")))
     else None)
    topic_id.

(** The decimal text of a sequence of digits, most significant first, and the
    number it denotes. *)
Definition digit_char (d : nat) : ascii := ascii_of_nat (48 + d).

Fixpoint numeral (ds : list nat) : string :=
  match ds with
  | [] => ""
  | d :: ds' => String (digit_char d) (numeral ds')
  end.

Definition numeral_value (ds : list nat) : Z :=
  foldl (fun acc d => 10 * acc + Z.of_nat d) 0 ds.

(** ** Sample runs

    A board configured with a password, a client that signs in, creates one
    topic and posts messages to it, each step taken by the handler. *)

Definition get_request (u : string) (query : gmap string string) : Request :=
  mkRequest GET u query ∅ ∅.

Definition post_request (u : string) (query form : gmap string string) : Request :=
  mkRequest POST u query form ∅.

Definition fresh_board : World :=
  mkWorld {[ "BOARD_PASSWORD" := "s3cret" ]} Store.empty ∅.

Definition signed_in : World :=
  snd (login fresh_board
         (post_request "http://board/login" ∅ {[ "password" := "s3cret" ]})).

Definition one_topic : World :=
  snd (new_topic signed_in
         (post_request "http://board/topic/new" ∅ {[ "title" := "General" ]})).

Fixpoint post_messages (n : nat) (w : World) : World :=
  match n with
  | O => w
  | S n' =>
      snd (add_message 1 (post_messages n' w)
             (post_request "http://board/topic/1/message" ∅ {[ "content" := "hello" ]}))
  end.

Definition board25 : World := post_messages 25 one_topic.

Definition topic_page (n : string) : Request :=
  get_request "http://board/topic/1" {[ "page" := n ]}.

(** A text of [n] characters. *)
Fixpoint filler (n : nat) : string :=
  match n with
  | O => ""
  | S n' => String "x" (filler n')
  end.

Definition message_form (content : string) (username : option string)
    : gmap string string :=
  match username with
  | Some u => {[ "content" := content; "username" := u ]}
  | None => {[ "content" := content ]}
  end.

Definition message_post (content : string) (username : option string) : Request :=
  post_request "http://board/topic/1/message" ∅ (message_form content username).

(** The client of [board25] after it signed out. *)
Definition signed_out : World :=
  snd (logout board25 (get_request "http://board/logout" ∅)).

(** ** Sentences of the specification that the code does not satisfy,
    stated as written *)

(** The sentence of the specification on pages past the last one, as written:
    an empty page is rendered. *)
Definition past_last_page_is_empty_page : Prop :=
  forall (w : World) (req : Request) (topic_id : Z) (topic : Topic),
    authenticated (session w) = true ->
    Store.get Topic_id topic_id (Store.topic_table (db w)) = Some topic ->
    1 < requested_page req ->
    Z.of_nat (length (topic_messages topic_id w)) <= (requested_page req - 1) * 10 ->
    exists pg u,
      fst (view_topic topic_id w req) = respond (render_template (topic_html topic pg u))
      /\ items pg = [].

(** The sentence on [NotFoundError], as written: raised for a missing topic
    and never for an existing one. *)
Definition not_found_only_for_missing_topic : Prop :=
  forall (w : World) (req : Request) (topic_id : Z),
    authenticated (session w) = true ->
    (Store.get Topic_id topic_id (Store.topic_table (db w)) = None ->
     fst (view_topic topic_id w req) = respond (abort NotFound))
    /\ (is_Some (Store.get Topic_id topic_id (Store.topic_table (db w))) ->
        fst (view_topic topic_id w req) ≠ respond (abort NotFound)).

(** The sentence on blank titles, as written: a title that is empty once its
    surrounding whitespace is removed creates no topic. *)
Definition blank_title_is_rejected : Prop :=
  forall (w : World) (req : Request) (title : string),
    authenticated (session w) = true ->
    method req = POST ->
    form req !! "title" = Some title ->
    Py.strip title = "" ->
    db (snd (new_topic w req)) = db w.

(** ** Routes and histories of requests *)

(** The routes of the application: [/login], [/logout] and the four
    operations behind the gate. *)
Inductive Route :=
| route_login
| route_logout
| route_op (op : Operation).

Definition dispatch (r : Route) : Handler :=
  match r with
  | route_login => login
  | route_logout => logout
  | route_op op => handler_of op
  end.

(** One request as the server receives it: the session of the client that
    sends it, the route it is sent to, and the request. *)
Record Visit := mkVisit {
  visit_session : gmap string SessionValue;
  visit_route : Route;
  visit_request : Request
}.

(** The store after one visit is served. *)
Definition serve (env : gmap string string) (d : Store.DB) (v : Visit) : Store.DB :=
  db (snd (dispatch (visit_route v) (mkWorld env d (visit_session v)) (visit_request v))).

(** The store after a sequence of visits, by any clients, served from the
    empty tables that [db.create_all()] sets up. *)
Definition history (env : gmap string string) (visits : list Visit) : Store.DB :=
  foldl (serve env) Store.empty visits.

(** The bounds [add_message] puts on what it stores. *)
Definition within_bounds (m : Message) : Prop :=
  Message_content m ≠ ""
  /\ (String.length (Message_content m) <= 300)%nat
  /\ match Message_username m with
     | None => True
     | Some u => u ≠ "" /\ (String.length u <= 50)%nat
     end.


(** A short history: a signed-in client creates two topics and posts twice
    to the first and once to the second. *)
Definition sample_env : gmap string string := {[ "BOARD_PASSWORD" := "s3cret" ]}.

Definition sample_visits : list Visit :=
  [ mkVisit (session signed_in) (route_op op_create_topic)
      (post_request "http://board/topic/new" ∅ {[ "title" := "General" ]});
    mkVisit (session signed_in) (route_op op_create_topic)
      (post_request "http://board/topic/new" ∅ {[ "title" := "News" ]});
    mkVisit (session signed_in) (route_op (op_add_message 1))
      (message_post "first" None);
    mkVisit (session signed_in) (route_op (op_add_message 2))
      (message_post "second" (Some "ann"));
    mkVisit (session signed_in) (route_op (op_add_message 1))
      (message_post "third" None) ].

(** * Properties *)

(** ** Python primitives *)

Section PyFacts.

Lemma truthy_Some (s : string) : s ≠ "" -> Py.truthy (Some s) = true.
Proof. destruct s; [congruence | reflexivity]. Qed.

Lemma truthy_true (x : option string) :
  Py.truthy x = true <-> exists s, x = Some s /\ s ≠ "".
Proof.
  split.
  - destruct x as [[|c s]|]; simpl; try discriminate.
    intros _. exists (String c s). split; [reflexivity | discriminate].
  - intros (s & -> & Hs). by apply truthy_Some.
Qed.

Lemma truthy_false (x : option string) :
  Py.truthy x = false <-> x = None \/ x = Some "".
Proof.
  split.
  - destruct x as [[|c s]|]; simpl; auto; discriminate.
  - intros [-> | ->]; reflexivity.
Qed.




Lemma digit_digit_char (d : nat) :
  (d < 10)%nat -> Py.digit (digit_char d) = Some (Z.of_nat d).
Proof. intros Hd. do 10 (destruct d as [|d]; [reflexivity|]). lia. Qed.

Lemma digit_char_plain (d : nat) :
  (d < 10)%nat ->
  Py.int_isspace (digit_char d) = false
  /\ digit_char d ≠ "+"%char /\ digit_char d ≠ "-"%char.
Proof.
  intros Hd. do 10 (destruct d as [|d]; [by repeat split|]). lia.
Qed.

Lemma digits_numeral (ds : list nat) (acc : Z) (prev : bool) :
  Forall (fun d => (d < 10)%nat) ds ->
  Py.digits acc prev (numeral ds)
  = match ds with
    | [] => if prev then Some acc else None
    | _ => Some (foldl (fun acc d => 10 * acc + Z.of_nat d) acc ds)
    end.
Proof.
  intros Hds. revert acc prev.
  induction Hds as [|d ds Hd Hds IH]; intros acc prev; [reflexivity|].
  cbn [numeral Py.digits foldl]. rewrite digit_digit_char by done.
  rewrite IH. by destruct ds.
Qed.

Lemma int_rstrip_numeral (ds : list nat) :
  Forall (fun d => (d < 10)%nat) ds -> Py.int_rstrip (numeral ds) = numeral ds.
Proof.
  induction 1 as [|d ds Hd Hds IH]; [reflexivity|].
  cbn [numeral Py.int_rstrip]. rewrite IH.
  destruct (digit_char_plain d Hd) as (-> & _ & _). by destruct ds.
Qed.

Lemma digit_count_numeral (ds : list nat) :
  Forall (fun d => (d < 10)%nat) ds -> Py.digit_count (numeral ds) = length ds.
Proof.
  induction 1 as [|d ds Hd Hds IH]; [reflexivity|].
  cbn [numeral Py.digit_count length]. rewrite digit_digit_char by done. by rewrite IH.
Qed.

(** [int] reads a decimal text of at most 4300 digits as the number it
    denotes. *)
Lemma int_numeral (ds : list nat) :
  ds ≠ [] ->
  Forall (fun d => (d < 10)%nat) ds ->
  (length ds <= 4300)%nat ->
  Py.int (numeral ds) = Some (numeral_value ds).
Proof.
  intros Hne Hds Hlen. destruct ds as [|d ds]; [done|].
  pose proof (Forall_inv Hds) as Hd.
  destruct (digit_char_plain d Hd) as (Hsp & Hplus & Hminus).
  unfold Py.int.
  assert (Hstrip : Py.int_rstrip (Py.int_lstrip (numeral (d :: ds))) = numeral (d :: ds)).
  { cbn [numeral Py.int_lstrip]. rewrite Hsp. by apply (int_rstrip_numeral (d :: ds)). }
  rewrite Hstrip, digit_count_numeral by done.
  destruct (Nat.ltb_spec Py.max_str_digits (length (d :: ds))) as [Hover|_].
  { unfold Py.max_str_digits in Hover. lia. }
  pose proof (digits_numeral (d :: ds) 0 false Hds) as Hdigits.
  cbn [numeral] in *.
  destruct (digit_char d) as [b0 b1 b2 b3 b4 b5 b6 b7] eqn:Hc.
  destruct b0, b1, b2, b3, b4, b5, b6, b7; try exact Hdigits; congruence.
Qed.

End PyFacts.

(** ** The store *)

Section StoreFacts.

Lemma next_rowid_above (ids : list Z) (x : Z) :
  x ∈ ids -> x < Store.next_rowid ids.
Proof.
  unfold Store.next_rowid. induction 1 as [x l | x y l _ IH]; simpl; lia.
Qed.

Lemma next_rowid_fresh (ids : list Z) : Store.next_rowid ids ∉ ids.
Proof. intros H%next_rowid_above. lia. Qed.

Context {A : Type} (key : A -> Z).

Global Instance desc_total : Total (Store.desc key).
Proof. intros a b. unfold Store.desc. lia. Qed.

Global Instance desc_trans : Transitive (Store.desc key).
Proof. intros a b c. unfold Store.desc. lia. Qed.

Lemma order_by_desc_sorted (rows : list A) :
  StronglySorted (Store.desc key) (Store.order_by_desc key rows).
Proof. apply StronglySorted_merge_sort; apply _. Qed.

Lemma order_by_desc_perm (rows : list A) :
  Store.order_by_desc key rows ≡ₚ rows.
Proof. apply merge_sort_Permutation. Qed.

Lemma order_by_desc_length (rows : list A) :
  length (Store.order_by_desc key rows) = length rows.
Proof. by rewrite order_by_desc_perm. Qed.

(** A row whose key is above every other key comes first. *)
Lemma order_by_desc_newest (rows : list A) (x : A) :
  (forall y, y ∈ rows -> key y < key x) ->
  exists rest, Store.order_by_desc key (rows ++ [x]) = x :: rest.
Proof.
  intros Hmax.
  pose proof (order_by_desc_sorted (rows ++ [x])) as Hs.
  pose proof (order_by_desc_perm (rows ++ [x])) as Hp.
  destruct (Store.order_by_desc key (rows ++ [x])) as [|h rest].
  { apply Permutation_nil_l in Hp. by destruct rows. }
  exists rest. f_equal.
  apply StronglySorted_inv in Hs as [_ Hh].
  assert (Hx : x ∈ h :: rest).
  { rewrite Hp. apply elem_of_app. right. apply list_elem_of_here. }
  assert (Hin : h ∈ rows ++ [x]) by (rewrite <- Hp; apply list_elem_of_here).
  apply elem_of_app in Hin as [Hin | Hin%list_elem_of_singleton]; [|done].
  apply Hmax in Hin.
  apply elem_of_cons in Hx as [-> | Hx]; [lia|].
  rewrite Forall_forall in Hh. apply Hh in Hx. unfold Store.desc in Hx. lia.
Qed.

Lemma get_Some (ident : Z) (rows : list A) (r : A) :
  Store.get key ident rows = Some r -> r ∈ rows /\ key r = ident.
Proof.
  unfold Store.get. intros H. apply find_some in H as [Hin Hk].
  apply bool_decide_eq_true in Hk. split; [by apply list_elem_of_In | done].
Qed.

Lemma get_None (ident : Z) (rows : list A) :
  Store.get key ident rows = None <-> ident ∉ key <$> rows.
Proof.
  unfold Store.get. induction rows as [|r rows IH]; simpl.
  - split; [intros _; apply not_elem_of_nil | done].
  - rewrite not_elem_of_cons. case_bool_decide as Hk.
    + split; [discriminate | intros [Hne _]; congruence].
    + rewrite IH. split; [intros ?; split; [congruence | done] | by intros [_ ?]].
Qed.

(** The row just appended under a key no other row has is the one found. *)
Lemma get_appended (rows : list A) (x : A) :
  key x ∉ key <$> rows -> Store.get key (key x) (rows ++ [x]) = Some x.
Proof.
  intros Hfresh. unfold Store.get. induction rows as [|r rows IH]; simpl.
  - by rewrite bool_decide_eq_true_2.
  - rewrite fmap_cons, not_elem_of_cons in Hfresh. destruct Hfresh as [Hne Hfresh].
    rewrite bool_decide_eq_false_2 by congruence. by apply IH.
Qed.

End StoreFacts.

(** ** Pagination *)

Section PaginateFacts.

Context (query : list Message).

Lemma page_items_length (p pp : Z) :
  length (take (Z.to_nat pp) (drop (Z.to_nat ((p - 1) * pp)) query))
  = (Z.to_nat pp `min` (length query - Z.to_nat ((p - 1) * pp)))%nat.
Proof. by rewrite length_take, length_drop. Qed.

Lemma page_items_nil (p pp : Z) :
  1 <= p -> 1 <= pp ->
  take (Z.to_nat pp) (drop (Z.to_nat ((p - 1) * pp)) query) = []
  <-> Z.of_nat (length query) <= (p - 1) * pp.
Proof.
  intros Hp Hpp. rewrite <- length_zero_iff_nil, page_items_length. nia.
Qed.

(** The page is served when its offset fits and it is page 1 or holds at
    least one row. *)
Lemma paginate_served (p pp : Z) :
  1 <= p -> 1 <= pp -> pp < 2 ^ 63 -> (p - 1) * pp < 2 ^ 63 ->
  p = 1 \/ (p - 1) * pp < Z.of_nat (length query) ->
  paginate query p pp
  = mret (mkPagination
            (take (Z.to_nat pp) (drop (Z.to_nat ((p - 1) * pp)) query))
            p pp (length query)).
Proof.
  intros Hp Hpp Hlim Hoff Hrange. unfold paginate, Store.fits_int64.
  destruct (Z.ltb_spec p 1); [lia|]. destruct (Z.ltb_spec pp 1); [lia|].
  destruct (Z.leb_spec (- 2 ^ 63) pp); [|lia].
  destruct (Z.ltb_spec pp (2 ^ 63)); [|lia].
  destruct (Z.leb_spec (- 2 ^ 63) ((p - 1) * pp)); [|nia].
  destruct (Z.ltb_spec ((p - 1) * pp) (2 ^ 63)); [|lia].
  cbn [andb negb].
  destruct Hrange as [-> | Hlt].
  - by rewrite andb_false_r.
  - rewrite bool_decide_eq_false_2; [done|].
    rewrite page_items_nil by done. lia.
Qed.

(** It is answered with 404 when the page number is below 1, or above 1 with
    an offset that fits and is past the last row. *)
Lemma paginate_aborts (p pp : Z) :
  1 <= pp -> pp < 2 ^ 63 ->
  p < 1 \/ (1 < p /\ (p - 1) * pp < 2 ^ 63
            /\ Z.of_nat (length query) <= (p - 1) * pp) ->
  paginate query p pp = raise NotFound.
Proof.
  intros Hpp Hlim Hout. unfold paginate, Store.fits_int64.
  destruct (Z.ltb_spec p 1); [done|]. destruct (Z.ltb_spec pp 1); [lia|].
  destruct Hout as [? | (Hp & Hoff & Hlen)]; [lia|].
  destruct (Z.leb_spec (- 2 ^ 63) pp); [|lia].
  destruct (Z.ltb_spec pp (2 ^ 63)); [|lia].
  destruct (Z.leb_spec (- 2 ^ 63) ((p - 1) * pp)); [|nia].
  destruct (Z.ltb_spec ((p - 1) * pp) (2 ^ 63)); [|lia].
  cbn [andb negb].
  rewrite bool_decide_eq_true_2 by (apply page_items_nil; [lia | done | done]).
  destruct (Z.eqb_spec p 1); [lia | done].
Qed.

(** It ends in a server error when the offset does not fit. *)
Lemma paginate_overflows (p pp : Z) :
  1 <= p -> 1 <= pp -> 2 ^ 63 <= (p - 1) * pp ->
  paginate query p pp = raise InternalServerError.
Proof.
  intros Hp Hpp Hoff. unfold paginate, Store.fits_int64.
  destruct (Z.ltb_spec p 1); [lia|]. destruct (Z.ltb_spec pp 1); [lia|].
  destruct (Z.ltb_spec ((p - 1) * pp) (2 ^ 63)); [lia|].
  by rewrite !andb_false_r.
Qed.

Lemma paginate_cases (p : Z) :
  (1 <= p /\ (p - 1) * 10 < 2 ^ 63
   /\ (p = 1 \/ (p - 1) * 10 < Z.of_nat (length query)))
  \/ (p < 1 \/ (1 < p /\ (p - 1) * 10 < 2 ^ 63
                 /\ Z.of_nat (length query) <= (p - 1) * 10))
  \/ (1 <= p /\ 2 ^ 63 <= (p - 1) * 10).
Proof. lia. Qed.

End PaginateFacts.

(** ** The session gate *)

Section GateFacts.

Lemma login_required_allowed (f : Handler) (w : World) (req : Request) :
  authenticated (session w) = true -> login_required f w req = f w req.
Proof. unfold login_required. by intros ->. Qed.

Lemma login_required_denied (f : Handler) (w : World) (req : Request) :
  authenticated (session w) = false ->
  login_required f w req = (respond (redirect (url_for_login (Some (url req)))), w).
Proof. unfold login_required. by intros ->. Qed.

End GateFacts.

Section ViewTopicFacts.

Context (w : World) (req : Request) (topic_id : Z).
Hypothesis Hauth : authenticated (session w) = true.

Lemma view_topic_missing :
  Store.get Topic_id topic_id (Store.topic_table (db w)) = None ->
  Store.fits_int64 topic_id = true ->
  view_topic topic_id w req = (respond (abort NotFound), w).
Proof.
  intros Hget Hfits. unfold view_topic. rewrite login_required_allowed by done.
  unfold get_or_404. by rewrite Hget, Hfits.
Qed.

Lemma view_topic_unbound :
  Store.get Topic_id topic_id (Store.topic_table (db w)) = None ->
  Store.fits_int64 topic_id = false ->
  view_topic topic_id w req = (respond (abort InternalServerError), w).
Proof.
  intros Hget Hfits. unfold view_topic. rewrite login_required_allowed by done.
  unfold get_or_404. by rewrite Hget, Hfits.
Qed.

Lemma view_topic_found (topic : Topic) :
  Store.get Topic_id topic_id (Store.topic_table (db w)) = Some topic ->
  view_topic topic_id w req
  = (handle_exception (
       messages ← paginate (topic_messages topic_id w) (requested_page req) 10;
       mret (respond (render_template
               (topic_html topic messages (Py.or_empty (cookies req !! "username")))))),
     w).
Proof.
  intros Hget. unfold view_topic. rewrite login_required_allowed by done.
  unfold get_or_404. by rewrite Hget.
Qed.

Lemma view_topic_served (topic : Topic) :
  Store.get Topic_id topic_id (Store.topic_table (db w)) = Some topic ->
  1 <= requested_page req ->
  requested_page req = 1
  \/ (requested_page req - 1) * 10 < Z.of_nat (length (topic_messages topic_id w)) ->
  (requested_page req - 1) * 10 < 2 ^ 63 ->
  view_topic topic_id w req
  = (respond (render_template (topic_html topic
       (mkPagination
          (take 10 (drop (Z.to_nat ((requested_page req - 1) * 10))
                      (topic_messages topic_id w)))
          (requested_page req) 10 (length (topic_messages topic_id w)))
       (Py.or_empty (cookies req !! "username")))), w).
Proof.
  intros Hget Hp Hrange Hoff. rewrite (view_topic_found topic Hget).
  by rewrite paginate_served by (done || lia).
Qed.

Lemma view_topic_out_of_range (topic : Topic) :
  Store.get Topic_id topic_id (Store.topic_table (db w)) = Some topic ->
  requested_page req < 1
  \/ (1 < requested_page req
      /\ (requested_page req - 1) * 10 < 2 ^ 63
      /\ Z.of_nat (length (topic_messages topic_id w)) <= (requested_page req - 1) * 10) ->
  view_topic topic_id w req = (respond (abort NotFound), w).
Proof.
  intros Hget Hout. rewrite (view_topic_found topic Hget).
  by rewrite paginate_aborts by (done || lia).
Qed.

Lemma view_topic_overflow (topic : Topic) :
  Store.get Topic_id topic_id (Store.topic_table (db w)) = Some topic ->
  1 <= requested_page req ->
  2 ^ 63 <= (requested_page req - 1) * 10 ->
  view_topic topic_id w req = (respond (abort InternalServerError), w).
Proof.
  intros Hget Hp Hoff. rewrite (view_topic_found topic Hget).
  by rewrite paginate_overflows by (done || lia).
Qed.

End ViewTopicFacts.

Example signed_in_authenticated : authenticated (session signed_in) = true.
Proof. reflexivity. Qed.

Example one_topic_table :
  Store.topic_table (db one_topic) = [mkTopic 1 "General"].
Proof. reflexivity. Qed.

Example board25_count : length (topic_messages 1 board25) = 25%nat.
Proof. vm_compute. reflexivity. Qed.

Example board25_page1_ids :
  exists t pg u,
    fst (view_topic 1 board25 (get_request "http://board/topic/1" ∅))
    = respond (render_template (topic_html t pg u))
    /\ Message_id <$> items pg = [25; 24; 23; 22; 21; 20; 19; 18; 17; 16].
Proof. vm_compute. do 3 eexists. split; reflexivity. Qed.

Example board25_page3_ids :
  exists t pg u,
    fst (view_topic 1 board25 (topic_page "3"))
    = respond (render_template (topic_html t pg u))
    /\ Message_id <$> items pg = [5; 4; 3; 2; 1].
Proof. vm_compute. do 3 eexists. split; reflexivity. Qed.

(** ** view_topic: pages, order and 404 *)

(** C1, counterexample.  With 25 messages in topic 1, the request for page 4
    is answered with 404, not with an empty page. *)
Lemma page_4_of_25_is_not_found :
  length (topic_messages 1 board25) = 25%nat
  /\ requested_page (topic_page "4") = 4
  /\ view_topic 1 board25 (topic_page "4") = (respond (abort NotFound), board25)
  /\ ~ past_last_page_is_empty_page.
Proof.
  assert (Hrun : view_topic 1 board25 (topic_page "4")
                 = (respond (abort NotFound), board25)) by (vm_compute; reflexivity).
  split; [vm_compute; reflexivity|].
  split; [vm_compute; reflexivity|].
  split; [exact Hrun|].
  intros Hclaim.
  destruct (Hclaim board25 (topic_page "4") 1 (mkTopic 1 "General"))
    as (pg & u & Hresp & _);
    [vm_compute; reflexivity | vm_compute; reflexivity | vm_compute; reflexivity
    | vm_compute; discriminate | ].
  rewrite Hrun in Hresp. discriminate.
Qed.

(** C1, amended.  For an existing topic, a page number above 1 that lies past
    the last message is answered with an error and nothing changes: with 404
    when the offset [(page - 1) * 10] can be bound to the query, with 500 when
    it is [2 ^ 63] or more.  An empty page is rendered only as page 1 of a
    topic that has no messages. *)
Theorem view_topic_past_last_page
    (w : World) (req : Request) (topic_id : Z) (topic : Topic) :
  authenticated (session w) = true ->
  Store.get Topic_id topic_id (Store.topic_table (db w)) = Some topic ->
  (1 < requested_page req ->
   Z.of_nat (length (topic_messages topic_id w)) <= (requested_page req - 1) * 10 ->
   (requested_page req - 1) * 10 < 2 ^ 63 ->
   view_topic topic_id w req = (respond (abort NotFound), w))
  /\ (2 ^ 63 <= (requested_page req - 1) * 10 ->
      view_topic topic_id w req = (respond (abort InternalServerError), w))
  /\ (forall pg u,
        fst (view_topic topic_id w req)
        = respond (render_template (topic_html topic pg u)) ->
        items pg = [] ->
        requested_page req = 1 /\ topic_messages topic_id w = []).
Proof.
  intros Hauth Hget. split; [|split].
  - intros Hp Hlen Hoff. by apply (view_topic_out_of_range w req topic_id Hauth topic); auto.
  - intros Hoff. apply (view_topic_overflow w req topic_id Hauth topic); [done | lia | done].
  - intros pg u Hresp Hnil.
    destruct (paginate_cases (topic_messages topic_id w) (requested_page req))
      as [(Hp & Hoff & Hin) | [Hout | (Hp & Hoff)]].
    + rewrite (view_topic_served w req topic_id Hauth topic Hget Hp Hin Hoff) in Hresp.
      cbn [fst] in Hresp. injection Hresp as <- _. cbn [items] in Hnil.
      apply (page_items_nil _ _ 10) in Hnil; [|done|lia].
      assert (length (topic_messages topic_id w) = 0%nat) as Hz by lia.
      split; [lia | by apply length_zero_iff_nil].
    + rewrite (view_topic_out_of_range w req topic_id Hauth topic Hget Hout) in Hresp.
      discriminate.
    + rewrite (view_topic_overflow w req topic_id Hauth topic Hget Hp Hoff) in Hresp.
      discriminate.
Qed.

Lemma view_topic_past_last_page_witness :
  view_topic 1 board25 (topic_page "4") = (respond (abort NotFound), board25).
Proof.
  apply (view_topic_past_last_page board25 (topic_page "4") 1 (mkTopic 1 "General"));
    vm_compute; (reflexivity || discriminate).
Defined.

Example huge_page_is_server_error :
  view_topic 1 board25 (topic_page "922337203685477582")
  = (respond (abort InternalServerError), board25).
Proof. vm_compute. reflexivity. Qed.

(** C6.  For an existing topic, [view_topic] pages through that topic's
    messages, all of them and no others, in descending order of id, ten to a
    page.  The page number [p] is 1 when the request names no page, and the
    number written in the [page] argument when that is a decimal text; page
    [p] holds the rows from position [(p - 1) * 10] on, at most ten of them. *)
Theorem view_topic_pages
    (w : World) (req : Request) (topic_id : Z) (topic : Topic) :
  authenticated (session w) = true ->
  Store.get Topic_id topic_id (Store.topic_table (db w)) = Some topic ->
  let p := requested_page req in
  let msgs := topic_messages topic_id w in
  (args req !! "page" = None -> p = 1)
  /\ (forall ds,
        args req !! "page" = Some (numeral ds) ->
        ds ≠ [] -> Forall (fun d => (d < 10)%nat) ds -> (length ds <= 4300)%nat ->
        p = numeral_value ds)
  /\ StronglySorted (fun a b => Message_id b <= Message_id a) msgs
  /\ (forall m, m ∈ msgs <->
                m ∈ Store.message_table (db w) /\ Message_topic_id m = topic_id)
  /\ length msgs
     = length (filter (fun m => Message_topic_id m = topic_id)
                 (Store.message_table (db w)))
  /\ (1 <= p ->
      p = 1 \/ ((p - 1) * 10 < Z.of_nat (length msgs) /\ (p - 1) * 10 < 2 ^ 63) ->
      exists pg,
        view_topic topic_id w req
        = (respond (render_template
             (topic_html topic pg (Py.or_empty (cookies req !! "username")))), w)
        /\ items pg = take 10 (drop (Z.to_nat ((p - 1) * 10)) msgs)
        /\ page pg = p
        /\ per_page pg = 10
        /\ Z.of_nat (length (items pg))
           = Z.min 10 (Z.of_nat (length msgs) - (p - 1) * 10)).
Proof.
  intros Hauth Hget p msgs.
  split; [|split; [|split; [|split; [|split]]]].
  - intros Hnone. unfold p, requested_page, args_get_int. by rewrite Hnone.
  - intros ds Harg Hne Hds Hlen. unfold p, requested_page, args_get_int.
    by rewrite Harg, int_numeral.
  - apply (order_by_desc_sorted Message_id).
  - intros m. unfold msgs, topic_messages. rewrite order_by_desc_perm.
    unfold Store.filter_by_topic_id. rewrite list_elem_of_filter. tauto.
  - unfold msgs, topic_messages. by rewrite order_by_desc_length.
  - intros Hp Hrange. eexists. split.
    + apply view_topic_served; [done | done | done | tauto | lia].
    + cbn [items page per_page]. repeat split.
      fold p msgs. rewrite length_take, length_drop. lia.
Qed.

Lemma view_topic_pages_witness :
  let req := topic_page (numeral [3%nat]) in
  let p := requested_page req in
  let msgs := topic_messages 1 board25 in
  (args req !! "page" = None -> p = 1)
  /\ (forall ds,
        args req !! "page" = Some (numeral ds) ->
        ds ≠ [] -> Forall (fun d => (d < 10)%nat) ds -> (length ds <= 4300)%nat ->
        p = numeral_value ds)
  /\ StronglySorted (fun a b => Message_id b <= Message_id a) msgs
  /\ (forall m, m ∈ msgs <->
                m ∈ Store.message_table (db board25) /\ Message_topic_id m = 1)
  /\ length msgs
     = length (filter (fun m => Message_topic_id m = 1)
                 (Store.message_table (db board25)))
  /\ (1 <= p ->
      p = 1 \/ ((p - 1) * 10 < Z.of_nat (length msgs) /\ (p - 1) * 10 < 2 ^ 63) ->
      exists pg,
        view_topic 1 board25 req
        = (respond (render_template
             (topic_html (mkTopic 1 "General") pg
                (Py.or_empty (cookies req !! "username")))), board25)
        /\ items pg = take 10 (drop (Z.to_nat ((p - 1) * 10)) msgs)
        /\ page pg = p
        /\ per_page pg = 10
        /\ Z.of_nat (length (items pg))
           = Z.min 10 (Z.of_nat (length msgs) - (p - 1) * 10)).
Proof.
  apply (view_topic_pages board25 (topic_page (numeral [3%nat])) 1 (mkTopic 1 "General"));
    vm_compute; reflexivity.
Defined.

Example page_argument_is_read :
  requested_page (topic_page "3") = 3
  /\ requested_page (topic_page "03") = 3
  /\ requested_page (topic_page " 3 ") = 3
  /\ requested_page (topic_page "1_0") = 10
  /\ requested_page (topic_page "-3") = -3
  /\ requested_page (topic_page "three") = 1
  /\ requested_page (topic_page "") = 1
  /\ requested_page (topic_page (String (ascii_of_nat 31) "3")) = 1
  /\ requested_page (topic_page (String (ascii_of_nat 160) "3")) = 3
  /\ requested_page (topic_page (numeral (replicate 4300 0%nat ++ [3%nat]))) = 1
  /\ requested_page (topic_page (numeral (replicate 4299 0%nat ++ [3%nat]))) = 3.
Proof. repeat split; vm_compute; reflexivity. Qed.

(** C7, counterexample.  Topic 1 exists and has no messages; the request for
    its page 2 is answered with 404. *)
Lemma existing_topic_page_2_is_not_found :
  Store.get Topic_id 1 (Store.topic_table (db one_topic)) = Some (mkTopic 1 "General")
  /\ view_topic 1 one_topic (topic_page "2") = (respond (abort NotFound), one_topic)
  /\ ~ not_found_only_for_missing_topic.
Proof.
  split; [vm_compute; reflexivity|].
  split; [vm_compute; reflexivity|].
  intros Hclaim.
  destruct (Hclaim one_topic (topic_page "2") 1) as [_ Hexists];
    [vm_compute; reflexivity|].
  apply Hexists; [|vm_compute; reflexivity].
  exists (mkTopic 1 "General"). vm_compute. reflexivity.
Qed.

(** C7, amended.  For a topic id that names no topic, [view_topic] answers 404
    when the id can be bound to the query, and 500 when it cannot (an id of
    [2 ^ 63] or more).  For an existing topic it answers 404 exactly when the
    page number is below 1, or above 1 and past the last message with an
    offset [(page - 1) * 10] below [2 ^ 63] (from [2 ^ 63] on the answer is
    500); in particular never on page 1. *)
Theorem view_topic_not_found_iff (w : World) (req : Request) (topic_id : Z) :
  authenticated (session w) = true ->
  (Store.get Topic_id topic_id (Store.topic_table (db w)) = None ->
   (Store.fits_int64 topic_id = true ->
    view_topic topic_id w req = (respond (abort NotFound), w))
   /\ (Store.fits_int64 topic_id = false ->
       view_topic topic_id w req = (respond (abort InternalServerError), w)))
  /\ (forall topic,
        Store.get Topic_id topic_id (Store.topic_table (db w)) = Some topic ->
        (fst (view_topic topic_id w req) = respond (abort NotFound)
         <-> requested_page req < 1
             \/ (1 < requested_page req
                 /\ (requested_page req - 1) * 10 < 2 ^ 63
                 /\ Z.of_nat (length (topic_messages topic_id w))
                    <= (requested_page req - 1) * 10))
        /\ (fst (view_topic topic_id w req) = respond (abort InternalServerError)
            <-> 1 <= requested_page req /\ 2 ^ 63 <= (requested_page req - 1) * 10)).
Proof.
  intros Hauth. split.
  - intros Hget. split; intros Hfits.
    + by apply view_topic_missing.
    + by apply view_topic_unbound.
  - intros topic Hget.
    destruct (paginate_cases (topic_messages topic_id w) (requested_page req))
      as [(Hp & Hoff & Hin) | [Hout | (Hp & Hoff)]].
    + rewrite (view_topic_served w req topic_id Hauth topic Hget Hp Hin Hoff).
      cbn [fst]. split; (split; [discriminate | lia]).
    + rewrite (view_topic_out_of_range w req topic_id Hauth topic Hget Hout).
      cbn [fst]. split; (split; [auto | auto]); try discriminate. lia.
    + rewrite (view_topic_overflow w req topic_id Hauth topic Hget Hp Hoff).
      cbn [fst]. split; (split; [auto | auto]); try discriminate. lia.
Qed.

Lemma view_topic_not_found_iff_witness :
  (Store.get Topic_id 1 (Store.topic_table (db board25)) = None ->
   (Store.fits_int64 1 = true ->
    view_topic 1 board25 (topic_page "0") = (respond (abort NotFound), board25))
   /\ (Store.fits_int64 1 = false ->
       view_topic 1 board25 (topic_page "0")
       = (respond (abort InternalServerError), board25)))
  /\ (forall topic,
        Store.get Topic_id 1 (Store.topic_table (db board25)) = Some topic ->
        (fst (view_topic 1 board25 (topic_page "0")) = respond (abort NotFound)
         <-> requested_page (topic_page "0") < 1
             \/ (1 < requested_page (topic_page "0")
                 /\ (requested_page (topic_page "0") - 1) * 10 < 2 ^ 63
                 /\ Z.of_nat (length (topic_messages 1 board25))
                    <= (requested_page (topic_page "0") - 1) * 10))
        /\ (fst (view_topic 1 board25 (topic_page "0"))
            = respond (abort InternalServerError)
            <-> 1 <= requested_page (topic_page "0")
                /\ 2 ^ 63 <= (requested_page (topic_page "0") - 1) * 10)).
Proof.
  apply (view_topic_not_found_iff board25 (topic_page "0") 1). reflexivity.
Defined.

Example unknown_topic_ids :
  view_topic 7 board25 (topic_page "1") = (respond (abort NotFound), board25)
  /\ view_topic (2 ^ 63 - 1) board25 (topic_page "1")
     = (respond (abort NotFound), board25)
  /\ view_topic (2 ^ 63) board25 (topic_page "1")
     = (respond (abort InternalServerError), board25).
Proof. repeat split; vm_compute; reflexivity. Qed.

(** ** Flashed messages *)

Lemma flash_queued (message category : string) (s : gmap string SessionValue) :
  (category, message) ∈ get_flashed (flash message category s).
Proof.
  unfold flash. unfold get_flashed at 1. rewrite lookup_insert_eq.
  apply elem_of_app. right. apply list_elem_of_here.
Qed.

(** ** new_topic *)

Section NewTopicFacts.

Context (w : World) (req : Request).
Hypothesis Hauth : authenticated (session w) = true.
Hypothesis Hpost : method req = POST.

Lemma new_topic_rejected :
  Py.truthy (form req !! "title") = false ->
  new_topic w req
  = (respond (render_template new_topic_html),
     with_session (flash "Topic title cannot be empty" "error" (session w)) w).
Proof.
  intros Hfalsy. unfold new_topic. rewrite login_required_allowed by done.
  by rewrite Hpost, Hfalsy.
Qed.

Lemma new_topic_created (t : string) :
  form req !! "title" = Some t -> t ≠ "" ->
  new_topic w req
  = (respond (redirect (url_for_view_topic
                (Store.next_rowid (Topic_id <$> Store.topic_table (db w))))),
     with_db
       (Store.mkDB
          (Store.topic_table (db w)
           ++ [mkTopic (Store.next_rowid (Topic_id <$> Store.topic_table (db w))) t])
          (Store.message_table (db w)))
       w).
Proof.
  intros Htitle Ht. unfold new_topic. rewrite login_required_allowed by done.
  by rewrite Hpost, Htitle, truthy_Some.
Qed.

End NewTopicFacts.

(** C2, counterexample.  A title made of one space is empty once trimmed, yet
    [new_topic] stores a topic under it. *)
Lemma blank_title_creates_topic :
  Py.strip " " = ""
  /\ Store.topic_table
       (db (snd (new_topic signed_in
                   (post_request "http://board/topic/new" ∅ {[ "title" := " " ]}))))
     = [mkTopic 1 " "]
  /\ ~ blank_title_is_rejected.
Proof.
  repeat split; try (vm_compute; reflexivity).
  intros Hclaim.
  specialize (Hclaim signed_in
    (post_request "http://board/topic/new" ∅ {[ "title" := " " ]}) " ").
  vm_compute in Hclaim.
  specialize (Hclaim eq_refl eq_refl eq_refl eq_refl). discriminate.
Qed.

(** C2, amended.  No trimming takes place.  When the submitted title is
    missing or the empty string, [new_topic] stores nothing, queues the
    message "Topic title cannot be empty" and shows the form again.  For every
    other title, whitespace-only ones included, it appends a topic with that
    title under an id no topic had before, and redirects to that topic's
    view. *)
Theorem new_topic_title_check (w : World) (req : Request) :
  authenticated (session w) = true ->
  method req = POST ->
  (form req !! "title" = None \/ form req !! "title" = Some "" ->
   db (snd (new_topic w req)) = db w
   /\ fst (new_topic w req) = respond (render_template new_topic_html)
   /\ ("error", "Topic title cannot be empty")
      ∈ get_flashed (session (snd (new_topic w req))))
  /\ (forall t, form req !! "title" = Some t -> t ≠ "" ->
      exists id,
        (id ∉ Topic_id <$> Store.topic_table (db w))
        /\ Store.topic_table (db (snd (new_topic w req)))
           = Store.topic_table (db w) ++ [mkTopic id t]
        /\ Store.message_table (db (snd (new_topic w req)))
           = Store.message_table (db w)
        /\ fst (new_topic w req) = respond (redirect (url_for_view_topic id))).
Proof.
  intros Hauth Hpost. split.
  - intros Hempty%truthy_false.
    rewrite (new_topic_rejected w req Hauth Hpost Hempty). simpl.
    repeat split. apply flash_queued.
  - intros t Htitle Ht.
    rewrite (new_topic_created w req Hauth Hpost t Htitle Ht). simpl.
    eexists. repeat split. apply next_rowid_fresh.
Qed.

Lemma new_topic_title_check_witness :
  let w := one_topic in
  let req := post_request "http://board/topic/new" ∅ {[ "title" := "  " ]} in
  (form req !! "title" = None \/ form req !! "title" = Some "" ->
   db (snd (new_topic w req)) = db w
   /\ fst (new_topic w req) = respond (render_template new_topic_html)
   /\ ("error", "Topic title cannot be empty")
      ∈ get_flashed (session (snd (new_topic w req))))
  /\ (forall t, form req !! "title" = Some t -> t ≠ "" ->
      exists id,
        (id ∉ Topic_id <$> Store.topic_table (db w))
        /\ Store.topic_table (db (snd (new_topic w req)))
           = Store.topic_table (db w) ++ [mkTopic id t]
        /\ Store.message_table (db (snd (new_topic w req)))
           = Store.message_table (db w)
        /\ fst (new_topic w req) = respond (redirect (url_for_view_topic id))).
Proof.
  apply (new_topic_title_check one_topic
           (post_request "http://board/topic/new" ∅ {[ "title" := "  " ]}));
    reflexivity.
Defined.

(** ** list_topics *)

Lemma list_topics_allowed (w : World) (req : Request) :
  authenticated (session w) = true ->
  list_topics w req
  = (respond (render_template
       (topics_html (Store.order_by_desc Topic_id (Store.topic_table (db w))))), w).
Proof. intros Hauth. unfold list_topics. by rewrite login_required_allowed. Qed.

(** C5.  After [new_topic] accepts a non-empty title of at most 100
    characters, the topic it stored is found under the id the redirect names,
    [view_topic] shows it, and [list_topics] shows it first; the list
    [list_topics] shows holds every topic of the table, in descending order
    of id.  (The proof makes no use of the bound on the length: the handler
    does not look at it.) *)
Theorem created_topic_is_first (w : World) (req : Request) (t : string) :
  authenticated (session w) = true ->
  method req = POST ->
  form req !! "title" = Some t ->
  t ≠ "" ->
  (String.length t <= 100)%nat ->
  let w' := snd (new_topic w req) in
  exists id,
    fst (new_topic w req) = respond (redirect (url_for_view_topic id))
    /\ Store.get Topic_id id (Store.topic_table (db w')) = Some (mkTopic id t)
    /\ (forall req', requested_page req' = 1 ->
        exists pg u,
          fst (view_topic id w' req')
          = respond (render_template (topic_html (mkTopic id t) pg u)))
    /\ (forall req',
        exists rest,
          fst (list_topics w' req')
          = respond (render_template (topics_html (mkTopic id t :: rest)))
          /\ StronglySorted (fun a b => Topic_id b <= Topic_id a) (mkTopic id t :: rest)
          /\ mkTopic id t :: rest ≡ₚ Store.topic_table (db w')).
Proof.
  intros Hauth Hpost Htitle Ht _ w'. subst w'.
  rewrite (new_topic_created w req Hauth Hpost t Htitle Ht). simpl.
  set (id := Store.next_rowid (Topic_id <$> Store.topic_table (db w))).
  set (new := mkTopic id t).
  assert (Hget : Store.get Topic_id id (Store.topic_table (db w) ++ [new]) = Some new).
  { apply (get_appended Topic_id _ new). apply next_rowid_fresh. }
  exists id. split; [done|]. split; [done|]. split.
  - intros req' Hpage. do 2 eexists.
    erewrite view_topic_served; [reflexivity | done | apply Hget | lia | by left | lia].
  - intros req'. rewrite list_topics_allowed by done. simpl.
    destruct (order_by_desc_newest Topic_id (Store.topic_table (db w)) new) as [rest Hrest].
    { intros y Hy. apply next_rowid_above. by apply list_elem_of_fmap_2. }
    unfold new in *. exists rest. rewrite Hrest. split; [done|]. split.
    + rewrite <- Hrest. apply (order_by_desc_sorted Topic_id).
    + rewrite <- Hrest. apply order_by_desc_perm.
Qed.

Lemma created_topic_is_first_witness :
  let req := post_request "http://board/topic/new" ∅ {[ "title" := "News" ]} in
  let w' := snd (new_topic board25 req) in
  exists id,
    fst (new_topic board25 req) = respond (redirect (url_for_view_topic id))
    /\ Store.get Topic_id id (Store.topic_table (db w')) = Some (mkTopic id "News")
    /\ (forall req', requested_page req' = 1 ->
        exists pg u,
          fst (view_topic id w' req')
          = respond (render_template (topic_html (mkTopic id "News") pg u)))
    /\ (forall req',
        exists rest,
          fst (list_topics w' req')
          = respond (render_template (topics_html (mkTopic id "News" :: rest)))
          /\ StronglySorted (fun a b => Topic_id b <= Topic_id a)
               (mkTopic id "News" :: rest)
          /\ mkTopic id "News" :: rest ≡ₚ Store.topic_table (db w')).
Proof.
  apply (created_topic_is_first board25
           (post_request "http://board/topic/new" ∅ {[ "title" := "News" ]}) "News");
    try reflexivity; [discriminate | simpl; lia].
Defined.

Example board25_topics_after_news :
  fst (list_topics
         (snd (new_topic board25
                 (post_request "http://board/topic/new" ∅ {[ "title" := "News" ]})))
         (get_request "http://board/" ∅))
  = respond (render_template (topics_html [mkTopic 2 "News"; mkTopic 1 "General"])).
Proof. vm_compute. reflexivity. Qed.

(** ** add_message *)

Local Arguments Py.slice_to : simpl never.

Section AddMessageFacts.

Context (w : World) (req : Request) (topic_id : Z).
Hypothesis Hauth : authenticated (session w) = true.

Lemma add_message_rejected :
  Py.truthy (form req !! "content") = false ->
  add_message topic_id w req
  = (respond (redirect (url_for_view_topic topic_id)),
     with_session (flash "Message cannot be empty" "error" (session w)) w).
Proof.
  intros Hfalsy. unfold add_message. rewrite login_required_allowed by done.
  by rewrite Hfalsy.
Qed.

Lemma add_message_stored (c : string) :
  form req !! "content" = Some c -> c ≠ "" ->
  add_message topic_id w req
  = (if Py.truthy (form req !! "username")
     then set_cookie "username" (default "" (form req !! "username"))
            (30 * 24 * 60 * 60) (respond (redirect (url_for_view_topic topic_id)))
     else respond (redirect (url_for_view_topic topic_id)),
     with_db
       (Store.mkDB (Store.topic_table (db w))
          (Store.message_table (db w) ++ [posted_row w req topic_id c]))
       w).
Proof.
  intros Hcontent Hc. unfold add_message. rewrite login_required_allowed by done.
  by rewrite Hcontent, truthy_Some.
Qed.

End AddMessageFacts.




(** C8.  When the content of a post is missing or the empty string,
    [add_message] stores nothing (topics and messages are as before), queues
    the message "Message cannot be empty" for display, and redirects to the
    topic's view. *)
Theorem add_message_empty_content (w : World) (req : Request) (topic_id : Z) :
  authenticated (session w) = true ->
  form req !! "content" = None \/ form req !! "content" = Some "" ->
  db (snd (add_message topic_id w req)) = db w
  /\ fst (add_message topic_id w req) = respond (redirect (url_for_view_topic topic_id))
  /\ ("error", "Message cannot be empty")
     ∈ get_flashed (session (snd (add_message topic_id w req))).
Proof.
  intros Hauth Hempty%truthy_false.
  rewrite (add_message_rejected w req topic_id Hauth Hempty). simpl.
  repeat split. apply flash_queued.
Qed.


Example long_content_is_cut :
  Message_content <$> Store.message_table
    (db (snd (add_message 1 one_topic (message_post (filler 301) None))))
  = [filler 300].
Proof. vm_compute. reflexivity. Qed.


Example long_username_is_cut :
  Message_username <$> Store.message_table
    (db (snd (add_message 1 one_topic (message_post "hello" (Some (filler 51))))))
  = [Some (filler 50)].
Proof. vm_compute. reflexivity. Qed.

Example omitted_username_is_none :
  Message_username <$> Store.message_table
    (db (snd (add_message 1 one_topic (message_post "hello" None))))
  = [None].
Proof. vm_compute. reflexivity. Qed.


Example named_post_sets_cookie :
  cookies_set (fst (add_message 1 one_topic (message_post "hello" (Some "ann"))))
  = [mkCookie "username" "ann" 2592000].
Proof. vm_compute. reflexivity. Qed.

Lemma add_message_empty_content_witness :
  db (snd (add_message 1 board25 (message_post "" None))) = db board25
  /\ fst (add_message 1 board25 (message_post "" None))
     = respond (redirect (url_for_view_topic 1))
  /\ ("error", "Message cannot be empty")
     ∈ get_flashed (session (snd (add_message 1 board25 (message_post "" None)))).
Proof.
  apply (add_message_empty_content board25 (message_post "" None) 1);
    [reflexivity | right; reflexivity].
Defined.

(** ** The session gate and login *)

Section LoginFacts.

Context (w : World) (req : Request).
Hypothesis Hpost : method req = POST.
Hypothesis Hpassword : form req !! "password" = environ w !! "BOARD_PASSWORD".

Lemma login_accepts :
  login w req
  = (if Py.truthy (args req !! "next")
     then respond (redirect (Url (default "" (args req !! "next"))))
     else respond (redirect url_for_list_topics),
     with_session
       (<["_permanent" := SBool true]>
          (<["authenticated" := SBool true]> (session w))) w).
Proof.
  unfold login. rewrite Hpost. by rewrite bool_decide_eq_true_2.
Qed.

Lemma login_authenticates : authenticated (session (snd (login w req))) = true.
Proof.
  rewrite login_accepts. simpl. unfold authenticated.
  apply bool_decide_eq_true_2.
  rewrite lookup_insert_ne by done. rewrite lookup_insert_eq. by eexists.
Qed.

End LoginFacts.

(** C9.  Each of the four operations, called without an authenticated session,
    leaves the state as it is and redirects to the login page with the URL of
    the request as [next].  A login request that posts the configured password
    authenticates the session; sent to that login location (so that its query
    carries [next]), it is answered with a redirect to the URL first asked
    for; sent without a [next], or with an empty one, it is answered with a
    redirect to the topic list. *)
Theorem gate_preserves_destination (op : Operation) (w : World) (req : Request) :
  authenticated (session w) = false ->
  url req ≠ "" ->
  exists loc,
    handler_of op w req = (respond (redirect loc), w)
    /\ loc = url_for_login (Some (url req))
    /\ forall (w' : World) (req' : Request),
         method req' = POST ->
         form req' !! "password" = environ w' !! "BOARD_PASSWORD" ->
         authenticated (session (snd (login w' req'))) = true
         /\ db (snd (login w' req')) = db w'
         /\ (args req' = query_of loc ->
             fst (login w' req') = respond (redirect (Url (url req))))
         /\ (args req' !! "next" = None \/ args req' !! "next" = Some "" ->
             fst (login w' req') = respond (redirect url_for_list_topics)).
Proof.
  intros Hanon Hurl. eexists. split; [|split; [reflexivity|]].
  - destruct op; simpl; by apply login_required_denied.
  - intros w' req' Hpost Hpassword.
    split; [by apply login_authenticates|].
    rewrite (login_accepts w' req' Hpost Hpassword). simpl.
    split; [done|]. split.
    + intros ->. simpl. rewrite lookup_singleton_eq. by rewrite truthy_Some.
    + intros Hnone%truthy_false. by rewrite Hnone.
Qed.

Lemma gate_preserves_destination_witness :
  let req := get_request "http://board/topic/1?page=2" {[ "page" := "2" ]} in
  exists loc,
    handler_of (op_view_topic 1) signed_out req = (respond (redirect loc), signed_out)
    /\ loc = url_for_login (Some (url req))
    /\ forall (w' : World) (req' : Request),
         method req' = POST ->
         form req' !! "password" = environ w' !! "BOARD_PASSWORD" ->
         authenticated (session (snd (login w' req'))) = true
         /\ db (snd (login w' req')) = db w'
         /\ (args req' = query_of loc ->
             fst (login w' req') = respond (redirect (Url (url req))))
         /\ (args req' !! "next" = None \/ args req' !! "next" = Some "" ->
             fst (login w' req') = respond (redirect url_for_list_topics)).
Proof.
  apply (gate_preserves_destination (op_view_topic 1) signed_out
           (get_request "http://board/topic/1?page=2" {[ "page" := "2" ]}));
    [reflexivity | discriminate].
Defined.

Example sign_in_returns_to_topic :
  login signed_out
    (post_request "http://board/login"
       (query_of (url_for_login (Some "http://board/topic/1?page=2")))
       {[ "password" := "s3cret" ]})
  = (respond (redirect (Url "http://board/topic/1?page=2")), board25).
Proof. vm_compute. reflexivity. Qed.

Example sign_in_without_next :
  fst (login signed_out
         (post_request "http://board/login" ∅ {[ "password" := "s3cret" ]}))
  = respond (redirect url_for_list_topics).
Proof. vm_compute. reflexivity. Qed.

Example wrong_password_stays_out :
  authenticated
    (session (snd (login signed_out
                     (post_request "http://board/login" ∅ {[ "password" := "guess" ]}))))
  = false.
Proof. vm_compute. reflexivity. Qed.

(** * Further properties of the handlers *)

(** ** login and logout *)

Lemma authenticated_flash (message category : string) (s : gmap string SessionValue) :
  authenticated (flash message category s) = authenticated s.
Proof. unfold authenticated, flash. by rewrite lookup_insert_ne. Qed.

Lemma login_keeps_store (w : World) (req : Request) :
  db (snd (login w req)) = db w.
Proof.
  unfold login. destruct (method req); simpl; try done.
  by case_bool_decide.
Qed.

(** X1.  [login] never writes to the store or the environment, and a session
    that is authenticated after [login] either was so before or belongs to a
    POST whose password field equals [BOARD_PASSWORD]. *)
Theorem login_grants_only_on_match (w : World) (req : Request) :
  db (snd (login w req)) = db w
  /\ environ (snd (login w req)) = environ w
  /\ (authenticated (session (snd (login w req))) = true ->
      authenticated (session w) = true
      \/ (method req = POST /\ form req !! "password" = environ w !! "BOARD_PASSWORD")).
Proof.
  unfold login. destruct (method req); simpl; auto.
  case_bool_decide as Hpw; simpl; [auto|].
  rewrite authenticated_flash. auto.
Qed.

(** X2.  A POST to [login] whose password field differs from
    [BOARD_PASSWORD] shows the login form again, queues "Invalid password",
    and leaves the session as authenticated or not as it was. *)
Theorem login_wrong_password (w : World) (req : Request) :
  method req = POST ->
  form req !! "password" ≠ environ w !! "BOARD_PASSWORD" ->
  fst (login w req) = respond (render_template login_html)
  /\ ("error", "Invalid password") ∈ get_flashed (session (snd (login w req)))
  /\ authenticated (session (snd (login w req))) = authenticated (session w).
Proof.
  intros Hpost Hpw. unfold login. rewrite Hpost.
  rewrite bool_decide_eq_false_2 by done. simpl.
  split; [done|]. split; [apply flash_queued | apply authenticated_flash].
Qed.

Lemma login_wrong_password_witness :
  let req := post_request "http://board/login" ∅ {[ "password" := "guess" ]} in
  fst (login signed_out req) = respond (render_template login_html)
  /\ ("error", "Invalid password") ∈ get_flashed (session (snd (login signed_out req)))
  /\ authenticated (session (snd (login signed_out req)))
     = authenticated (session signed_out).
Proof.
  apply (login_wrong_password signed_out
           (post_request "http://board/login" ∅ {[ "password" := "guess" ]}));
    [reflexivity | vm_compute; discriminate].
Defined.

(** X3.  When [BOARD_PASSWORD] is not set in the environment, a POST to
    [login] that carries no password field is accepted: both sides of the
    comparison are [None]. *)
Theorem login_unset_password (w : World) (req : Request) :
  method req = POST ->
  environ w !! "BOARD_PASSWORD" = None ->
  form req !! "password" = None ->
  authenticated (session (snd (login w req))) = true.
Proof.
  intros Hpost Henv Hform. apply login_authenticates; [done | congruence].
Qed.

Lemma login_unset_password_witness :
  authenticated
    (session (snd (login (mkWorld ∅ Store.empty ∅)
                     (post_request "http://board/login" ∅ ∅)))) = true.
Proof.
  apply (login_unset_password (mkWorld ∅ Store.empty ∅)
           (post_request "http://board/login" ∅ ∅)); reflexivity.
Defined.

(** X4.  [logout] redirects to the login page, empties the session and keeps
    the store: whatever the session held, nothing of it is left, and each of
    the four operations called next is redirected to the login page. *)
Theorem logout_closes_gate (w : World) (req req' : Request) (op : Operation) :
  fst (logout w req) = respond (redirect (url_for_login None))
  /\ session (snd (logout w req)) = ∅
  /\ db (snd (logout w req)) = db w
  /\ environ (snd (logout w req)) = environ w
  /\ handler_of op (snd (logout w req)) req'
     = (respond (redirect (url_for_login (Some (url req')))), snd (logout w req)).
Proof.
  split; [done|]. split; [done|]. split; [done|]. split; [done|].
  destruct op; simpl; by apply login_required_denied.
Qed.





(** ** What a visit can do to the store *)

Lemma slice_to_length_le (n : nat) (s : string) :
  (String.length (Py.slice_to n s) <= n)%nat.
Proof.
  revert s. induction n as [|n IH]; intros [|c s]; simpl; try lia.
  specialize (IH s). lia.
Qed.

Lemma slice_to_nonempty (n : nat) (s : string) :
  s ≠ "" -> Py.slice_to (S n) s ≠ "".
Proof. destruct s; [done | discriminate]. Qed.

Lemma posted_row_within_bounds (w : World) (req : Request) (topic_id : Z) (c : string) :
  c ≠ "" -> within_bounds (posted_row w req topic_id c).
Proof.
  intros Hc. unfold within_bounds, posted_row. simpl.
  split; [by apply slice_to_nonempty|]. split; [apply slice_to_length_le|].
  destruct (Py.truthy (form req !! "username")) eqn:Huser; [|done].
  apply truthy_true in Huser as (u & -> & Hu). simpl.
  split; [by apply slice_to_nonempty | apply slice_to_length_le].
Qed.

(** A visit leaves the store alone, or appends one topic with a non-empty
    title, or appends one message within bounds; the last two only for an
    authenticated session. *)
Lemma serve_cases (env : gmap string string) (d : Store.DB) (v : Visit) :
  serve env d v = d
  \/ (authenticated (visit_session v) = true
      /\ exists t, t ≠ ""
         /\ serve env d v
            = Store.mkDB
                (Store.topic_table d
                 ++ [mkTopic (Store.next_rowid (Topic_id <$> Store.topic_table d)) t])
                (Store.message_table d))
  \/ (authenticated (visit_session v) = true
      /\ exists m, within_bounds m
         /\ Message_id m = Store.next_rowid (Message_id <$> Store.message_table d)
         /\ serve env d v
            = Store.mkDB (Store.topic_table d) (Store.message_table d ++ [m])).
Proof.
  destruct v as [s r req]. unfold serve. simpl.
  set (w := mkWorld env d s).
  destruct r as [| |op]; simpl.
  - left. apply (login_keeps_store w req).
  - by left.
  - destruct (authenticated s) eqn:Hauth.
    2:{ left. destruct op; cbn [handler_of];
        unfold list_topics, view_topic, new_topic, add_message;
        by rewrite login_required_denied. }
    destruct op as [|topic_id| |topic_id]; cbn [handler_of].
    + left. by rewrite list_topics_allowed.
    + left. unfold view_topic. by rewrite login_required_allowed.
    + unfold new_topic. rewrite login_required_allowed by done.
      destruct (method req); simpl; try by left.
      destruct (Py.truthy (form req !! "title")) eqn:Htitle; simpl; [|by left].
      apply truthy_true in Htitle as (t & -> & Ht).
      right. left. split; [done|]. by exists t.
    + destruct (Py.truthy (form req !! "content")) eqn:Hcontent.
      * apply truthy_true in Hcontent as (c & Hcontent & Hc).
        rewrite (add_message_stored w req topic_id Hauth c Hcontent Hc). simpl.
        right. right. split; [done|]. eexists.
        split; [by apply (posted_row_within_bounds w req topic_id c)|].
        split; reflexivity.
      * left. by rewrite (add_message_rejected w req topic_id Hauth Hcontent).
Qed.

Lemma foldl_serve_invariant (env : gmap string string) (P : Store.DB -> Prop) :
  (forall d v, P d -> P (serve env d v)) ->
  forall visits d, P d -> P (foldl (serve env) d visits).
Proof.
  intros Hstep visits. induction visits as [|v visits IH]; intros d Hd; simpl; auto.
Qed.

Lemma serve_prefix (env : gmap string string) (d : Store.DB) (v : Visit) :
  Store.topic_table d `prefix_of` Store.topic_table (serve env d v)
  /\ Store.message_table d `prefix_of` Store.message_table (serve env d v).
Proof.
  destruct (serve_cases env d v) as [-> | [(_ & t & _ & ->) | (_ & m & _ & _ & ->)]];
    simpl; split; try done; by apply prefix_app_r.
Qed.

(** X7.  The handlers never delete or change a stored row: after any sequence
    of visits, the topics and the messages that were in the store are still
    there, unchanged and in the same order, at the front of their tables. *)
Theorem visits_only_append
    (env : gmap string string) (d : Store.DB) (visits : list Visit) :
  Store.topic_table d `prefix_of` Store.topic_table (foldl (serve env) d visits)
  /\ Store.message_table d `prefix_of` Store.message_table (foldl (serve env) d visits).
Proof.
  revert d. induction visits as [|v visits IH]; intros d; simpl; [done|].
  destruct (serve_prefix env d v) as [Ht Hm].
  destruct (IH (serve env d v)) as [Ht' Hm'].
  split; etrans; eauto.
Qed.

(** X8.  A visit whose session is not authenticated leaves the store as it
    is, whichever route it takes and whatever it submits. *)
Theorem no_write_without_session
    (env : gmap string string) (d : Store.DB) (v : Visit) :
  authenticated (visit_session v) = false -> serve env d v = d.
Proof.
  intros Hanon.
  destruct (serve_cases env d v) as [-> | [(Hauth & _) | (Hauth & _)]];
    [done | congruence | congruence].
Qed.

Lemma no_write_without_session_witness :
  serve {[ "BOARD_PASSWORD" := "s3cret" ]} (db board25)
    (mkVisit ∅ (route_op (op_add_message 1)) (message_post "hello" None))
  = db board25.
Proof.
  apply (no_write_without_session {[ "BOARD_PASSWORD" := "s3cret" ]} (db board25)
           (mkVisit ∅ (route_op (op_add_message 1)) (message_post "hello" None))).
  reflexivity.
Defined.

Lemma foldr_max_cases (ids : list Z) :
  foldr Z.max 0 ids = 0 \/ foldr Z.max 0 ids ∈ ids.
Proof.
  induction ids as [|x ids IH]; [by left|].
  cbn [foldr]. destruct IH as [H0 | Hin].
  - rewrite H0. destruct (Z.max_spec x 0) as [[_ ->] | [_ ->]];
      [by left | right; apply list_elem_of_here].
  - right. destruct (Z.max_spec x (foldr Z.max 0 ids)) as [[_ ->] | [_ ->]];
      [by apply list_elem_of_further | apply list_elem_of_here].
Qed.

Lemma next_rowid_seqZ (n : nat) :
  Store.next_rowid (seqZ 1 (Z.of_nat n)) = 1 + Z.of_nat n.
Proof.
  unfold Store.next_rowid. f_equal.
  assert (Hup : forall x, x ∈ seqZ 1 (Z.of_nat n) -> x <= foldr Z.max 0 (seqZ 1 (Z.of_nat n))).
  { intros x Hx%next_rowid_above. unfold Store.next_rowid in Hx. lia. }
  destruct (foldr_max_cases (seqZ 1 (Z.of_nat n))) as [H0 | Hin].
  - destruct n as [|n]; [by rewrite H0|].
    specialize (Hup (Z.of_nat (S n))). rewrite elem_of_seqZ in Hup. lia.
  - pose proof Hin as Hin'. rewrite elem_of_seqZ in Hin'.
    destruct n as [|n]; [lia|].
    specialize (Hup (Z.of_nat (S n))). rewrite elem_of_seqZ in Hup. lia.
Qed.

Lemma consecutive_snoc {A} (key : A -> Z) (rows : list A) (x : A) :
  key <$> rows = seqZ 1 (Z.of_nat (length rows)) ->
  key x = Store.next_rowid (key <$> rows) ->
  key <$> (rows ++ [x]) = seqZ 1 (Z.of_nat (length (rows ++ [x]))).
Proof.
  intros Hrows Hx. rewrite fmap_app, length_app. simpl.
  rewrite Nat.add_1_r, seqZ_S, <- Hrows. f_equal.
  rewrite Hx, Hrows, next_rowid_seqZ. done.
Qed.

(** X9.  Ids are handed out in order and never reused: after any sequence of
    visits to a board that started empty, the ids of the topics, in insertion
    order, are 1, 2, ..., up to the number of topics, and likewise for the
    messages. *)
Theorem ids_are_consecutive (env : gmap string string) (visits : list Visit) :
  Topic_id <$> Store.topic_table (history env visits)
  = seqZ 1 (Z.of_nat (length (Store.topic_table (history env visits))))
  /\ Message_id <$> Store.message_table (history env visits)
     = seqZ 1 (Z.of_nat (length (Store.message_table (history env visits)))).
Proof.
  unfold history.
  apply (foldl_serve_invariant env (fun d =>
    Topic_id <$> Store.topic_table d = seqZ 1 (Z.of_nat (length (Store.topic_table d)))
    /\ Message_id <$> Store.message_table d
       = seqZ 1 (Z.of_nat (length (Store.message_table d))))); [|done].
  intros d v [Ht Hm].
  destruct (serve_cases env d v) as [-> | [(_ & t & _ & ->) | (_ & m & _ & Hid & ->)]];
    simpl; split; try done.
  - by apply consecutive_snoc.
  - by apply consecutive_snoc.
Qed.

(** X10.  Every message stored by any sequence of visits to a board that
    started empty has non-empty content of at most 300 characters, and either
    no username or a non-empty one of at most 50 characters. *)
Theorem stored_messages_within_bounds
    (env : gmap string string) (visits : list Visit) :
  Forall within_bounds (Store.message_table (history env visits)).
Proof.
  unfold history.
  apply (foldl_serve_invariant env (fun d => Forall within_bounds (Store.message_table d)));
    [|by constructor].
  intros d v Hd.
  destruct (serve_cases env d v) as [-> | [(_ & t & _ & ->) | (_ & m & Hm & _ & ->)]];
    simpl; try done.
  apply Forall_app. split; [done|]. by constructor.
Qed.

(** X11.  Every topic stored by any sequence of visits to a board that
    started empty has a non-empty title. *)
Theorem stored_titles_non_empty (env : gmap string string) (visits : list Visit) :
  Forall (fun t => Topic_title t ≠ "") (Store.topic_table (history env visits)).
Proof.
  unfold history.
  apply (foldl_serve_invariant env
           (fun d => Forall (fun t => Topic_title t ≠ "") (Store.topic_table d)));
    [|by constructor].
  intros d v Hd.
  destruct (serve_cases env d v) as [-> | [(_ & t & Ht & ->) | (_ & m & _ & _ & ->)]];
    simpl; try done.
  apply Forall_app. split; [done|]. by constructor.
Qed.

Lemma get_prefix {A} (key : A -> Z) (ident : Z) (rows rows' : list A) (r : A) :
  rows `prefix_of` rows' ->
  Store.get key ident rows = Some r -> Store.get key ident rows' = Some r.
Proof.
  intros [k ->]. unfold Store.get. induction rows as [|x rows IH]; simpl; [done|].
  by destruct (bool_decide _).
Qed.

(** X12.  A topic found under an id is found under that id, with the same
    title, after any further visits. *)
Theorem topic_stays_retrievable
    (env : gmap string string) (d : Store.DB) (visits : list Visit)
    (ident : Z) (t : Topic) :
  Store.get Topic_id ident (Store.topic_table d) = Some t ->
  Store.get Topic_id ident (Store.topic_table (foldl (serve env) d visits)) = Some t.
Proof.
  apply get_prefix.
  revert d. induction visits as [|v visits IH]; intros d; simpl; [done|].
  etrans; [apply (serve_prefix env d v) | apply IH].
Qed.

Lemma topic_stays_retrievable_witness :
  Store.get Topic_id 1
    (Store.topic_table
       (foldl (serve {[ "BOARD_PASSWORD" := "s3cret" ]}) (db one_topic)
          [mkVisit (session signed_in) (route_op op_create_topic)
             (post_request "http://board/topic/new" ∅ {[ "title" := "News" ]});
           mkVisit ∅ route_logout (get_request "http://board/logout" ∅)]))
  = Some (mkTopic 1 "General").
Proof.
  apply (topic_stays_retrievable {[ "BOARD_PASSWORD" := "s3cret" ]} (db one_topic)).
  reflexivity.
Defined.

(** ** More on view_topic *)

(** X13.  No message of a topic is left off the pages: the message at
    position [i] of the topic's messages in descending order of id (for [i]
    below [2 ^ 63], so that the offset of its page can be bound) is shown at
    position [i mod 10] of page [i / 10 + 1], and that page is served. *)
Theorem message_on_its_page
    (w : World) (req : Request) (topic_id : Z) (topic : Topic) (i : nat) (m : Message) :
  authenticated (session w) = true ->
  Store.get Topic_id topic_id (Store.topic_table (db w)) = Some topic ->
  topic_messages topic_id w !! i = Some m ->
  Z.of_nat i < 2 ^ 63 ->
  requested_page req = Z.of_nat (i / 10) + 1 ->
  exists pg u,
    view_topic topic_id w req
    = (respond (render_template (topic_html topic pg u)), w)
    /\ items pg !! (i mod 10)%nat = Some m.
Proof.
  intros Hauth Hget Hi Hbound Hpage.
  pose proof (lookup_lt_Some _ _ _ Hi) as Hlen.
  pose proof (Nat.div_mod_eq i 10) as Hdiv.
  pose proof (Nat.mod_upper_bound i 10 ltac:(lia)) as Hmod.
  set (q := (i / 10)%nat) in *. set (r := (i mod 10)%nat) in *. clearbody q r.
  do 2 eexists. split.
  - apply view_topic_served; [done | done | lia | right; lia | lia].
  - cbn [items]. rewrite lookup_take_lt by done. rewrite lookup_drop.
    rewrite <- Hi. f_equal. lia.
Qed.

Lemma message_on_its_page_witness :
  exists pg u,
    view_topic 1 board25 (topic_page "3")
    = (respond (render_template (topic_html (mkTopic 1 "General") pg u)), board25)
    /\ items pg !! (24 mod 10)%nat = Some (mkMessage 1 "hello" None 1).
Proof.
  apply (message_on_its_page board25 (topic_page "3") 1 (mkTopic 1 "General") 24
           (mkMessage 1 "hello" None 1)); vm_compute; reflexivity.
Defined.

(** X14.  A message that [add_message] accepts for an existing topic is the
    first item of page 1 of that topic right after. *)
Theorem posted_message_is_first
    (w : World) (req req' : Request) (topic_id : Z) (topic : Topic) (c : string) :
  authenticated (session w) = true ->
  form req !! "content" = Some c ->
  c ≠ "" ->
  Store.get Topic_id topic_id (Store.topic_table (db w)) = Some topic ->
  requested_page req' = 1 ->
  exists pg u rest,
    fst (view_topic topic_id (snd (add_message topic_id w req)) req')
    = respond (render_template (topic_html topic pg u))
    /\ items pg = posted_row w req topic_id c :: rest.
Proof.
  intros Hauth Hcontent Hc Hget Hpage.
  rewrite (add_message_stored w req topic_id Hauth c Hcontent Hc). cbn [snd].
  set (w' := with_db _ w).
  assert (Hmsgs : exists rest0, topic_messages topic_id w' = posted_row w req topic_id c :: rest0).
  { unfold topic_messages, Store.filter_by_topic_id. simpl.
    rewrite filter_app. rewrite filter_cons_True by reflexivity. rewrite filter_nil.
    apply order_by_desc_newest.
    intros y [_ Hy]%list_elem_of_filter.
    change (Message_id (posted_row w req topic_id c))
      with (Store.next_rowid (Message_id <$> Store.message_table (db w))).
    apply next_rowid_above. by apply list_elem_of_fmap_2. }
  destruct Hmsgs as [rest0 Hmsgs].
  rewrite (view_topic_served w' req' topic_id Hauth topic Hget) by (lia || by left).
  rewrite Hpage, Hmsgs. simpl. by do 3 eexists.
Qed.

Lemma posted_message_is_first_witness :
  exists pg u rest,
    fst (view_topic 1 (snd (add_message 1 board25 (message_post "newest" None)))
           (topic_page "1"))
    = respond (render_template (topic_html (mkTopic 1 "General") pg u))
    /\ items pg = posted_row board25 (message_post "newest" None) 1 "newest" :: rest.
Proof.
  apply (posted_message_is_first board25 (message_post "newest" None) (topic_page "1")
           1 (mkTopic 1 "General") "newest"); vm_compute; (reflexivity || discriminate).
Defined.





(** X17.  [add_message] does not look the topic up: a post to an id that
    names no topic (an id that can be bound, so below [2 ^ 63]) is stored all
    the same, and since no topic is created by it, the topic's page is still
    answered with 404. *)
Theorem post_to_missing_topic
    (w : World) (req req' : Request) (topic_id : Z) (c : string) :
  authenticated (session w) = true ->
  form req !! "content" = Some c ->
  c ≠ "" ->
  Store.get Topic_id topic_id (Store.topic_table (db w)) = None ->
  Store.fits_int64 topic_id = true ->
  let w' := snd (add_message topic_id w req) in
  Store.message_table (db w')
  = Store.message_table (db w) ++ [posted_row w req topic_id c]
  /\ Message_topic_id (posted_row w req topic_id c) = topic_id
  /\ fst (view_topic topic_id w' req') = respond (abort NotFound).
Proof.
  intros Hauth Hcontent Hc Hget Hfits w'. subst w'.
  rewrite (add_message_stored w req topic_id Hauth c Hcontent Hc). cbn [snd].
  split; [done|]. split; [done|].
  by rewrite view_topic_missing.
Qed.

Lemma post_to_missing_topic_witness :
  let w' := snd (add_message 9 one_topic (message_post "hello" None)) in
  Store.message_table (db w')
  = Store.message_table (db one_topic)
    ++ [posted_row one_topic (message_post "hello" None) 9 "hello"]
  /\ Message_topic_id (posted_row one_topic (message_post "hello" None) 9 "hello") = 9
  /\ fst (view_topic 9 w' (topic_page "1")) = respond (abort NotFound).
Proof.
  apply (post_to_missing_topic one_topic (message_post "hello" None) (topic_page "1")
           9 "hello"); vm_compute; (reflexivity || discriminate).
Defined.

(** ** Order of insertion and order of display *)

Section Ascending.

Context {A : Type} (key : A -> Z).

Lemma ascending_snoc (rows : list A) (x : A) :
  StronglySorted (fun a b => key a < key b) rows ->
  key x = Store.next_rowid (key <$> rows) ->
  StronglySorted (fun a b => key a < key b) (rows ++ [x]).
Proof.
  intros Hrows Hx. apply StronglySorted_app_2; [|done|repeat constructor].
  intros y x' Hy ->%list_elem_of_singleton. rewrite Hx.
  apply next_rowid_above. by apply list_elem_of_fmap_2.
Qed.

Lemma ascending_inj (rows : list A) (x y : A) :
  StronglySorted (fun a b => key a < key b) rows ->
  x ∈ rows -> y ∈ rows -> key x = key y -> x = y.
Proof.
  induction 1 as [|r rows Hs IH Hr]; intros Hx Hy Hk.
  { by apply elem_of_nil in Hx. }
  rewrite Forall_forall in Hr.
  apply elem_of_cons in Hx as [-> | Hx]; apply elem_of_cons in Hy as [-> | Hy]; auto.
  - apply Hr in Hy. lia.
  - apply Hr in Hx. lia.
Qed.

Lemma ascending_filter (P : A -> Prop) `{!forall a, Decision (P a)} (rows : list A) :
  StronglySorted (fun a b => key a < key b) rows ->
  StronglySorted (fun a b => key a < key b) (filter P rows).
Proof.
  induction 1 as [|r rows Hs IH Hr]; [constructor|].
  rewrite filter_cons. case_decide; [|done].
  constructor; [done|].
  rewrite Forall_forall in Hr. apply Forall_forall.
  intros y [_ Hy]%list_elem_of_filter. by apply Hr.
Qed.

Lemma ascending_reverse (rows : list A) :
  StronglySorted (fun a b => key a < key b) rows ->
  StronglySorted (Store.desc key) (reverse rows).
Proof.
  induction 1 as [|r rows Hs IH Hr]; [constructor|].
  rewrite reverse_cons. apply StronglySorted_app_2; [|done|repeat constructor].
  rewrite Forall_forall in Hr.
  intros y x Hy ->%list_elem_of_singleton.
  rewrite elem_of_reverse in Hy. apply Hr in Hy. unfold Store.desc. lia.
Qed.

(** Rows stored under increasing keys come out of [order_by_desc] in the
    reverse of their order in the table. *)
Lemma order_by_desc_reverse (rows : list A) :
  StronglySorted (fun a b => key a < key b) rows ->
  Store.order_by_desc key rows = reverse rows.
Proof.
  intros Hasc. apply (StronglySorted_unique_strong (Store.desc key)).
  - intros x y Hx Hy Hxy Hyx.
    apply (ascending_inj rows); [done | | | unfold Store.desc in *; lia].
    + by rewrite order_by_desc_perm in Hx.
    + by rewrite elem_of_reverse in Hy.
  - apply order_by_desc_sorted.
  - by apply ascending_reverse.
  - rewrite order_by_desc_perm. by rewrite reverse_Permutation.
Qed.

Lemma get_member (rows : list A) (x : A) :
  StronglySorted (fun a b => key a < key b) rows ->
  x ∈ rows -> Store.get key (key x) rows = Some x.
Proof.
  intros Hasc Hx.
  destruct (Store.get key (key x) rows) as [r|] eqn:Hget.
  - apply get_Some in Hget as [Hr Hk]. f_equal. by apply (ascending_inj rows).
  - apply get_None in Hget. destruct Hget. by apply list_elem_of_fmap_2.
Qed.

End Ascending.

Lemma history_ascending (env : gmap string string) (visits : list Visit) :
  StronglySorted (fun a b => Topic_id a < Topic_id b)
    (Store.topic_table (history env visits))
  /\ StronglySorted (fun a b => Message_id a < Message_id b)
       (Store.message_table (history env visits)).
Proof.
  unfold history.
  apply (foldl_serve_invariant env (fun d =>
    StronglySorted (fun a b => Topic_id a < Topic_id b) (Store.topic_table d)
    /\ StronglySorted (fun a b => Message_id a < Message_id b) (Store.message_table d)));
    [|split; constructor].
  intros d v [Ht Hm].
  destruct (serve_cases env d v) as [-> | [(_ & t & _ & ->) | (_ & m & _ & Hid & ->)]];
    simpl; split; try done; by apply ascending_snoc.
Qed.

(** X18.  On a board that started empty, newest-first is the reverse of the
    order of creation: [list_topics] shows the topics in the reverse of the
    order in which they were created, and [view_topic] pages through a
    topic's messages in the reverse of the order in which they were posted. *)
Theorem newest_first_is_reverse_of_creation
    (env : gmap string string) (visits : list Visit)
    (s : gmap string SessionValue) (req : Request) (topic_id : Z) :
  authenticated s = true ->
  let w := mkWorld env (history env visits) s in
  fst (list_topics w req)
  = respond (render_template (topics_html (reverse (Store.topic_table (db w)))))
  /\ topic_messages topic_id w
     = reverse (Store.filter_by_topic_id topic_id (Store.message_table (db w))).
Proof.
  intros Hauth w. destruct (history_ascending env visits) as [Ht Hm]. split.
  - rewrite list_topics_allowed by done. simpl.
    by rewrite order_by_desc_reverse.
  - unfold topic_messages. apply order_by_desc_reverse.
    by apply ascending_filter.
Qed.

(** X19.  On a board that started empty, every stored topic is the one found
    under its id, so every topic that [list_topics] shows opens with
    [view_topic] on its id. *)
Theorem listed_topic_opens
    (env : gmap string string) (visits : list Visit)
    (s : gmap string SessionValue) (req : Request) (t : Topic) :
  authenticated s = true ->
  t ∈ Store.topic_table (history env visits) ->
  requested_page req = 1 ->
  let w := mkWorld env (history env visits) s in
  Store.get Topic_id (Topic_id t) (Store.topic_table (db w)) = Some t
  /\ exists pg u,
       fst (view_topic (Topic_id t) w req)
       = respond (render_template (topic_html t pg u)).
Proof.
  intros Hauth Ht Hpage w.
  assert (Hget : Store.get Topic_id (Topic_id t) (Store.topic_table (db w)) = Some t).
  { apply get_member; [apply history_ascending | done]. }
  split; [done|]. do 2 eexists.
  rewrite (view_topic_served w req (Topic_id t) Hauth t Hget) by (lia || by left).
  reflexivity.
Qed.

Example sample_history :
  history sample_env sample_visits
  = Store.mkDB
      [mkTopic 1 "General"; mkTopic 2 "News"]
      [mkMessage 1 "first" None 1; mkMessage 2 "second" (Some "ann") 2;
       mkMessage 3 "third" None 1].
Proof. vm_compute. reflexivity. Qed.

Lemma newest_first_is_reverse_of_creation_witness :
  let w := mkWorld sample_env (history sample_env sample_visits) (session signed_in) in
  fst (list_topics w (get_request "http://board/" ∅))
  = respond (render_template (topics_html (reverse (Store.topic_table (db w)))))
  /\ topic_messages 1 w
     = reverse (Store.filter_by_topic_id 1 (Store.message_table (db w))).
Proof.
  apply (newest_first_is_reverse_of_creation sample_env sample_visits
           (session signed_in) (get_request "http://board/" ∅) 1).
  reflexivity.
Defined.

Lemma listed_topic_opens_witness :
  let w := mkWorld sample_env (history sample_env sample_visits) (session signed_in) in
  Store.get Topic_id 2 (Store.topic_table (db w)) = Some (mkTopic 2 "News")
  /\ exists pg u,
       fst (view_topic 2 w (get_request "http://board/topic/2" ∅))
       = respond (render_template (topic_html (mkTopic 2 "News") pg u)).
Proof.
  apply (listed_topic_opens sample_env sample_visits (session signed_in)
           (get_request "http://board/topic/2" ∅) (mkTopic 2 "News")).
  - reflexivity.
  - apply (bool_decide_unpack _). vm_compute. exact I.
  - reflexivity.
Defined.
